(** * pytorch.go: loading of legacy PyTorch checkpoints

    A shallow embedding of [src/pytorch/pytorch.go] (package [pytorch] of
    gopickle) and the properties of its loader.

    Go values of type [interface{}] become the inductive [Value]; a Go
    function that returns [(interface{}, error)] and may panic becomes a
    function into [outcome]; the map [deserializedObjects] captured by the
    [PersistentLoad] closure becomes a [gmap] from keys to addresses in a
    heap of storages, so that "the same Storage instance" is equality of
    addresses. *)

From Stdlib Require Import ZArith List.
From Stdlib Require Import HexadecimalString HexadecimalZ HexadecimalFacts.
From stdpp Require Import gmap strings list.

Set Warnings "-clear-no-such-hyp".

(** ** Errors and outcomes *)

(** The [error] values the package can return: its two sentinels, the
    sentinels of [io] and [archive/tar] that [loadLegacyFile] switches on,
    errors made by [fmt.Errorf], and errors of the collaborators (decoder,
    operating system), which are passed through. *)
Inductive error : Type :=
| ErrInvalidMagicNumber
| ErrInvalidProtocolVersion
| io_EOF
| io_ErrUnexpectedEOF
| tar_ErrHeader
| Errorf (msg : string)
| ExternalError (msg : string).

(** What a call of a Go function with results [(A, error)] does: it returns
    a value and a nil error, returns a non-nil error, or panics. *)
Inductive outcome (A : Type) : Type :=
| Ok (a : A)
| Err (e : error)
| Panic (msg : string).
Arguments Ok {A} a.
Arguments Err {A} e.
Arguments Panic {A} msg.

(** ** Values *)

(** The nine storage classes of [pickleFindClass]. *)
Inductive StorageClass : Type :=
| FloatStorageClass | HalfStorageClass | DoubleStorageClass
| CharStorageClass | ShortStorageClass | IntStorageClass
| LongStorageClass | ByteStorageClass | BoolStorageClass.

(** The dynamic types an [interface{}] holds in this package. A
    [VStorage p] is a [StorageInterface]: the pointer [p] to a storage on
    the heap. *)
#[warnings="-register-all"]
Inductive Value : Type :=
| VNil
| VInt (n : Z)
| VString (s : string)
| VBigInt (n : Z)
| VTuple (elems : list Value)
| VList (elems : list Value)
| VSlice (elems : list Value)
| VStorageClass (c : StorageClass)
| VRebuildTensorV2
| VStorage (p : nat)
| VOther (type_name : string).

(** The file [f], seen from its read cursor: the bytes not yet read. *)
Abbreviation Stream := (list Byte.byte).

(** ** Storages *)

Record Storage : Type := mkStorage {
  storage_class : StorageClass;
  storage_size : Z;
  storage_location : string;
  storage_data : list Byte.byte
}.

(** The state of one load: the storages allocated so far, addressed by
    their index, and the map [deserializedObjects]. *)
Record Store : Type := mkStore {
  heap : list Storage;
  deserializedObjects : gmap string nat
}.

Definition empty_store : Store := mkStore [] ∅.

(** Modelled from the spec: the method [New] of [StorageClassInterface],
    whose implementations are not in [pytorch.go]. It allocates a storage
    of the class's element kind with the given element count and location;
    its bytes are filled in later. The new storage gets the next free
    address. *)
Definition StorageClass_New (c : StorageClass) (size : Z) (location : string)
    (h : list Storage) : nat * list Storage :=
  (length h, h ++ [mkStorage c size location []]).

(** Modelled from the spec: the size in bytes of one element of each
    kind (float32, float16, float64, int8, int16, int32, int64, uint8,
    bool). *)
Definition elementSize (c : StorageClass) : nat :=
  match c with
  | FloatStorageClass => 4
  | HalfStorageClass => 2
  | DoubleStorageClass => 8
  | CharStorageClass => 1
  | ShortStorageClass => 2
  | IntStorageClass => 4
  | LongStorageClass => 8
  | ByteStorageClass => 1
  | BoolStorageClass => 1
  end.

Definition payload_length (s : Storage) : nat :=
  Z.to_nat (storage_size s) * elementSize (storage_class s).

(** Modelled from the spec: the method [SetFromFile] of
    [StorageInterface], not in [pytorch.go]. It reads exactly
    [elementCount * elementSize(kind)] bytes at the cursor into the
    storage's buffer and advances the cursor by as many; a file that ends
    before is an I/O error, passed on as it is. The receiver is a storage
    of the registry, so its address is allocated (see [store_wf] below);
    the first case is there to make the function total. *)
Definition SetFromFile (p : nat) (h : list Storage) (f : Stream)
    : option error * list Storage * Stream :=
  match h !! p with
  | None => (Some (ExternalError "invalid storage"), h, f)
  | Some s =>
      let n := payload_length s in
      if length f <? n then (Some io_ErrUnexpectedEOF, h, [])
      else
        (None,
         <[p := mkStorage (storage_class s) (storage_size s)
                  (storage_location s) (take n f)]> h,
         drop n f)
  end.

(** ** Header constants *)

Definition hexMagicNumber : string := "1950a86a20f9469cfc6c".
Definition protocolVersion : Z := 1001.

(** The method [Text(16)] of [big.Int]: lower-case hexadecimal digits, a leading minus
    sign for a negative number, no leading zeros. *)
Definition big_Text16 (n : Z) : string :=
  NilZero.string_of_int (Z.to_hex_int n).

(** ** Type assertions *)

Definition as_Tuple (v : Value) : option (list Value) :=
  match v with VTuple t => Some t | _ => None end.

Definition as_List (v : Value) : option (list Value) :=
  match v with VList l => Some l | _ => None end.

Definition as_string (v : Value) : option string :=
  match v with VString s => Some s | _ => None end.

Definition as_int (v : Value) : option Z :=
  match v with VInt n => Some n | _ => None end.

Definition as_big_Int (v : Value) : option Z :=
  match v with VBigInt n => Some n | _ => None end.

Definition as_StorageClassInterface (v : Value) : option StorageClass :=
  match v with VStorageClass c => Some c | _ => None end.

(** ** [pickleFindClass] *)

Definition pickleFindClass (module name : string) : outcome Value :=
  let full := module +:+ "." +:+ name in
  if String.eqb full "torch._utils._rebuild_tensor_v2" then Ok VRebuildTensorV2
  else if String.eqb full "torch.FloatStorage" then Ok (VStorageClass FloatStorageClass)
  else if String.eqb full "torch.HalfStorage" then Ok (VStorageClass HalfStorageClass)
  else if String.eqb full "torch.DoubleStorage" then Ok (VStorageClass DoubleStorageClass)
  else if String.eqb full "torch.CharStorage" then Ok (VStorageClass CharStorageClass)
  else if String.eqb full "torch.ShortStorage" then Ok (VStorageClass ShortStorageClass)
  else if String.eqb full "torch.IntStorage" then Ok (VStorageClass IntStorageClass)
  else if String.eqb full "torch.LongStorage" then Ok (VStorageClass LongStorageClass)
  else if String.eqb full "torch.ByteStorage" then Ok (VStorageClass ByteStorageClass)
  else if String.eqb full "torch.BoolStorage" then Ok (VStorageClass BoolStorageClass)
  else Err (Errorf ("class no found: " +:+ module +:+ " " +:+ name)).

(** ** The resolver of persistent references *)

(** Code that reads and updates the store of the load, and returns, fails
    or panics. *)
Definition Go (A : Type) : Type := Store → outcome A * Store.

Definition ret {A} (a : A) : Go A := λ st, (Ok a, st).
Definition fail {A} (e : error) : Go A := λ st, (Err e, st).
Definition panic {A} (msg : string) : Go A := λ st, (Panic msg, st).

Definition bind {A B} (c : Go A) (k : A → Go B) : Go B :=
  λ st,
    match c st with
    | (Ok a, st') => k a st'
    | (Err e, st') => (Err e, st')
    | (Panic msg, st') => (Panic msg, st')
    end.

Notation "'let!' x ':=' c 'in' k" := (bind c (λ x, k))
  (at level 10, x name, c at level 100, k at level 200).

(** [tuple.Get(i)]: indexing a slice panics out of range. *)
Definition Tuple_Get (tuple : list Value) (i : nat) : Go Value :=
  match tuple !! i with
  | Some v => ret v
  | None => panic "index out of range"
  end.

Definition Tuple_Len (tuple : list Value) : nat := length tuple.

(** Lines 103-107: the storage registered under [rootKey], allocated and
    registered first when the key is new. *)
Definition lookup_or_New (dataType : StorageClass) (rootKey location : string)
    (size : Z) : Go nat :=
  λ st,
    match deserializedObjects st !! rootKey with
    | Some storage => (Ok storage, st)
    | None =>
        let '(storage, h) := StorageClass_New dataType size location (heap st) in
        (Ok storage, mkStore h (<[rootKey := storage]> (deserializedObjects st)))
    end.

(** Lines 108-124: the type switch on [viewMetadata]. *)
Definition switch_viewMetadata (storage : nat) (viewMetadata : Value) : Go Value :=
  match viewMetadata with
  | VNil => ret (VStorage storage)
  | VSlice vm =>
      if negb (length vm =? 3) then
        fail (Errorf "PersistentLoad: unexpected view metadata length")
      else panic "viewMetadata not implemented"
  | _ => fail (Errorf "PersistentLoad: unexpected view metadata type")
  end.

(** The case ["storage"] of the closure [u.PersistentLoad]. *)
Definition PersistentLoad_storage (tuple : list Value) : Go Value :=
  if negb (Tuple_Len tuple =? 6) then
    fail (Errorf "PersistentLoad: unexpected storage data length")
  else
    let! e1 := Tuple_Get tuple 1 in
    let! e2 := Tuple_Get tuple 2 in
    let! e3 := Tuple_Get tuple 3 in
    let! e4 := Tuple_Get tuple 4 in
    let! viewMetadata := Tuple_Get tuple 5 in
    match as_StorageClassInterface e1, as_string e2, as_string e3, as_int e4 with
    | Some dataType, Some rootKey, Some location, Some size =>
        let! storage := lookup_or_New dataType rootKey location size in
        switch_viewMetadata storage viewMetadata
    | _, _, _, _ => fail (Errorf "PersistentLoad: unexpected data types")
    end.

(** The closure [u.PersistentLoad] of [loadLegacyNoTar]; the map it
    captures is the one of the store. *)
Definition PersistentLoad (savedId : Value) : Go Value :=
  match as_Tuple savedId with
  | None => fail (Errorf "PersistentLoad: non-empty tuple espected")
  | Some tuple =>
      if Tuple_Len tuple =? 0 then
        fail (Errorf "PersistentLoad: non-empty tuple espected")
      else
        let! e0 := Tuple_Get tuple 0 in
        match as_string e0 with
        | None => fail (Errorf "PersistentLoad: cannot get typename")
        | Some typename =>
            if String.eqb typename "storage" then PersistentLoad_storage tuple
            else if String.eqb typename "module" then
              panic "PersistentLoad module not implemented"
            else fail (Errorf ("Unexpected saved ID type: " +:+ typename))
        end
  end.

(** ** The external decoder *)

(** A run of [gopickle]'s [Unpickler.Load] with the hooks [FindClass] and
    [PersistentLoad] set, as the loader sees it: the decoder reads the
    file, calls a hook, goes on with what the hook returned, and in the end
    stops with a value, an error or a panic, leaving the cursor of the file
    somewhere. [here] is the cursor at the time of a call. *)
Inductive Decoding : Type :=
| DecDone (r : outcome Value) (rest : Stream)
| DecFindClass (module name : string) (here : Stream) (k : Value → Decoding)
| DecPersistentLoad (savedId : Value) (here : Stream) (k : Value → Decoding).

(** What the loader takes from its environment: the decoder of package
    [gopickle] without hooks ([unpickle]'s [u.Load()]) and with the two
    hooks set, and the calls of [archive/zip], [os] and [archive/tar].
    [zip_OpenReader], [tar_Next] and [f_Seek] give the [err] result of the
    call, [None] for [nil]. *)
Record Env : Type := mkEnv {
  Unpickler_Load : Stream → outcome Value * Stream;
  Unpickler_Load_hooked : Stream → Decoding;
  zip_OpenReader : string → option error;
  os_Open : string → error + Stream;
  tar_Next : Stream → option error;
  f_Seek : Stream → option error
}.

(** Modelled from the spec: how the decoder treats its hooks, which is
    code of package [gopickle] outside [pytorch.go]. The value a hook
    returns goes back to the decoder; an error of a hook ends the decoding
    with that error; a panic of a hook is not recovered. *)
Fixpoint run_Load (d : Decoding) (st : Store) : outcome Value * Store * Stream :=
  match d with
  | DecDone r rest => (r, st, rest)
  | DecFindClass module name here k =>
      match pickleFindClass module name with
      | Ok c => run_Load (k c) st
      | Err e => (Err e, st, here)
      | Panic msg => (Panic msg, st, here)
      end
  | DecPersistentLoad savedId here k =>
      match PersistentLoad savedId st with
      | (Ok v, st') => run_Load (k v) st'
      | (Err e, st') => (Err e, st', here)
      | (Panic msg, st') => (Panic msg, st', here)
      end
  end.

(** ** The loader *)

Definition unpickle (E : Env) (r : Stream) : outcome Value * Stream :=
  Unpickler_Load E r.

Definition readAndCheckMagicNumber (E : Env) (r : Stream) : outcome unit * Stream :=
  match unpickle E r with
  | (Ok obj, r') =>
      match as_big_Int obj with
      | Some n =>
          if negb (String.eqb (big_Text16 n) hexMagicNumber)
          then (Err ErrInvalidMagicNumber, r')
          else (Ok tt, r')
      | None => (Err ErrInvalidMagicNumber, r')
      end
  | (Err e, r') => (Err e, r')
  | (Panic msg, r') => (Panic msg, r')
  end.

Definition readAndChecProtocolVersion (E : Env) (r : Stream) : outcome unit * Stream :=
  match unpickle E r with
  | (Ok obj, r') =>
      match as_int obj with
      | Some n =>
          if negb (n =? protocolVersion)%Z
          then (Err ErrInvalidProtocolVersion, r')
          else (Ok tt, r')
      | None => (Err ErrInvalidProtocolVersion, r')
      end
  | (Err e, r') => (Err e, r')
  | (Panic msg, r') => (Panic msg, r')
  end.

(** The loop of [makeStorageKeys]. *)
Fixpoint storage_keys_of (raw : list Value) : outcome (list string) :=
  match raw with
  | [] => Ok []
  | rawKey :: list' =>
      match as_string rawKey with
      | None => Err (Errorf "invalid storage key")
      | Some key =>
          match storage_keys_of list' with
          | Ok keys => Ok (key :: keys)
          | other => other
          end
      end
  end.

Definition makeStorageKeys (obj : Value) : outcome (list string) :=
  match as_List obj with
  | None => Err (Errorf "invalid storage keys data")
  | Some raw => storage_keys_of raw
  end.

(** The loop over [storageKeys] at the end of [loadLegacyNoTar]. *)
Fixpoint set_storages_from_file (storageKeys : list string) (st : Store) (f : Stream)
    : option error * list Storage * Stream :=
  match storageKeys with
  | [] => (None, heap st, f)
  | key :: storageKeys' =>
      match deserializedObjects st !! key with
      | None =>
          (Some (Errorf ("storage object not found for key '" +:+ key +:+ "'")),
           heap st, f)
      | Some storageObj =>
          match SetFromFile storageObj (heap st) f with
          | (Some err, h, f1) => (Some err, h, f1)
          | (None, h, f1) =>
              set_storages_from_file storageKeys'
                (mkStore h (deserializedObjects st)) f1
          end
      end
  end.

(** What a load leaves: its result, the storages it allocated and the
    cursor of the file. *)
Record Loaded : Type := mkLoaded {
  result : outcome Value;
  storages : list Storage;
  position : Stream
}.

(** [loadLegacyNoTar] from the decoding of the object graph on: lines
    75-161. *)
Definition loadLegacyNoTar_graph (E : Env) (f : Stream) : Loaded :=
  match run_Load (Unpickler_Load_hooked E f) empty_store with
  | (Err e, st, f1) => mkLoaded (Err e) (heap st) f1
  | (Panic msg, st, f1) => mkLoaded (Panic msg) (heap st) f1
  | (Ok result, st, f1) =>
      match unpickle E f1 with
      | (Err e, f2) => mkLoaded (Err e) (heap st) f2
      | (Panic msg, f2) => mkLoaded (Panic msg) (heap st) f2
      | (Ok rawStorageKeys, f2) =>
          match makeStorageKeys rawStorageKeys with
          | Err e => mkLoaded (Err e) (heap st) f2
          | Panic msg => mkLoaded (Panic msg) (heap st) f2
          | Ok storageKeys =>
              match set_storages_from_file storageKeys st f2 with
              | (Some err, h, f3) => mkLoaded (Err err) h f3
              | (None, h, f3) => mkLoaded (Ok result) h f3
              end
          end
      end
  end.

(** [loadLegacyNoTar] from the system information on: lines 71-161. *)
Definition loadLegacyNoTar_sys_info (E : Env) (f : Stream) : Loaded :=
  match unpickle E f with
  | (Err e, f1) => mkLoaded (Err e) [] f1
  | (Panic msg, f1) => mkLoaded (Panic msg) [] f1
  | (Ok _, f1) => loadLegacyNoTar_graph E f1
  end.

Definition loadLegacyNoTar (E : Env) (f : Stream) : Loaded :=
  match readAndCheckMagicNumber E f with
  | (Err e, f1) => mkLoaded (Err e) [] f1
  | (Panic msg, f1) => mkLoaded (Panic msg) [] f1
  | (Ok _, f1) =>
      match readAndChecProtocolVersion E f1 with
      | (Err e, f2) => mkLoaded (Err e) [] f2
      | (Panic msg, f2) => mkLoaded (Panic msg) [] f2
      | (Ok _, f2) => loadLegacyNoTar_sys_info E f2
      end
  end.

(** [loadLegacyFile]: the [break] of the case [io.EOF] leaves the
    [switch], not the loop, so the panic after the [switch] follows; the
    [default] case returns [nil, err], also when [err] is [nil]. The loop
    body never reaches its end, so [tr.Next()] is called once. *)
Definition loadLegacyFile (E : Env) (filename : string) : Loaded :=
  match os_Open E filename with
  | inl err => mkLoaded (Err err) [] []
  | inr f =>
      match tar_Next E f with
      | Some io_EOF => mkLoaded (Panic "legacy load from tar not implemented") [] f
      | Some tar_ErrHeader =>
          match f_Seek E f with
          | Some err => mkLoaded (Err err) [] f
          | None => loadLegacyNoTar E f
          end
      | Some err => mkLoaded (Err err) [] f
      | None => mkLoaded (Ok VNil) [] f
      end
  end.

Definition loadZipFile (filename : string) : Loaded :=
  mkLoaded (Panic "loadZipFile not implemented") [] [].

Definition isZipFile (E : Env) (filename : string) : bool :=
  match zip_OpenReader E filename with
  | Some _ => false
  | None => true
  end.

Definition Load (E : Env) (filename : string) : Loaded :=
  if negb (isZipFile E filename) then loadLegacyFile E filename
  else loadZipFile filename.

(** ** Vocabulary of the properties *)

(** The magic number as an integer. *)
Definition magic_number : Z := 0x1950a86a20f9469cfc6c.

(** The error kinds of the specification, as the errors of the code they
    name. The code builds these errors with [fmt.Errorf]; they are told
    apart by their message. *)
Definition MalformedStorageRecord (e : error) : Prop :=
  e = Errorf "PersistentLoad: unexpected storage data length"
  ∨ e = Errorf "PersistentLoad: unexpected data types"
  ∨ e = Errorf "PersistentLoad: unexpected view metadata length"
  ∨ e = Errorf "PersistentLoad: unexpected view metadata type".

Definition UnknownStorageKey (e : error) : Prop :=
  ∃ key, e = Errorf ("storage object not found for key '" +:+ key +:+ "'").

Definition UnexpectedPersistentIdType (e : error) : Prop :=
  ∃ typename, e = Errorf ("Unexpected saved ID type: " +:+ typename).


(** The stores a load goes through: from one call of the resolver to a
    later one, only calls of the resolver change the store. *)
Inductive resolutions : Store → Store → Prop :=
| resolutions_refl st : resolutions st st
| resolutions_step st savedId r st1 st2 :
    PersistentLoad savedId st = (r, st1) →
    resolutions st1 st2 →
    resolutions st st2.

(** Every registered storage is allocated. *)
Definition store_wf (st : Store) : Prop :=
  ∀ key p, deserializedObjects st !! key = Some p → p < length (heap st).

(** The path of [Load] to [loadLegacyNoTar]: the file is no zip archive,
    it opens, the tar reader finds no header in it, the seek succeeds. *)
Definition legacy_raw (E : Env) (filename : string) (f : Stream) : Prop :=
  isZipFile E filename = false
  ∧ os_Open E filename = inr f
  ∧ tar_Next E f = Some tar_ErrHeader
  ∧ f_Seek E f = None.

(** The header of the file at [f] decodes and passes both checks, the
    system information decodes, and the cursor is then at [f3]. *)
Definition header_ok (E : Env) (f f3 : Stream) : Prop :=
  ∃ f1 f2 sys_info,
    unpickle E f = (Ok (VBigInt magic_number), f1)
    ∧ unpickle E f1 = (Ok (VInt protocolVersion), f2)
    ∧ unpickle E f2 = (Ok sys_info, f3).

(** The file at [f] decodes up to its payload: the header is right, the
    object graph decodes to [graph] and leaves the store [st], the key
    order decodes to [storageKeys], and the cursor is then at [f5]. *)
Definition decoded (E : Env) (f : Stream) (graph : Value) (st : Store)
    (storageKeys : list string) (f5 : Stream) : Prop :=
  ∃ f3 f4 rawStorageKeys,
    header_ok E f f3
    ∧ run_Load (Unpickler_Load_hooked E f3) empty_store = (Ok graph, st, f4)
    ∧ unpickle E f4 = (Ok rawStorageKeys, f5)
    ∧ makeStorageKeys rawStorageKeys = Ok storageKeys.

(** The name under which [pickleFindClass] finds a storage class. *)
Definition StorageClass_name (c : StorageClass) : string :=
  match c with
  | FloatStorageClass => "torch.FloatStorage"
  | HalfStorageClass => "torch.HalfStorage"
  | DoubleStorageClass => "torch.DoubleStorage"
  | CharStorageClass => "torch.CharStorage"
  | ShortStorageClass => "torch.ShortStorage"
  | IntStorageClass => "torch.IntStorage"
  | LongStorageClass => "torch.LongStorage"
  | ByteStorageClass => "torch.ByteStorage"
  | BoolStorageClass => "torch.BoolStorage"
  end.

(** The cases of the [switch] of [pickleFindClass]. *)
Definition known_class_names : list string :=
  "torch._utils._rebuild_tensor_v2"
  :: map StorageClass_name
       [FloatStorageClass; HalfStorageClass; DoubleStorageClass;
        CharStorageClass; ShortStorageClass; IntStorageClass;
        LongStorageClass; ByteStorageClass; BoolStorageClass].

(** A well-typed storage record. *)
Definition storage_tuple (c : StorageClass) (rootKey location : string)
    (size : Z) (viewMetadata : Value) : Value :=
  VTuple [VString "storage"; VStorageClass c; VString rootKey;
          VString location; VInt size; viewMetadata].

(** Different keys have different storages. *)
Definition store_inj (st : Store) : Prop :=
  ∀ key1 key2 p,
    deserializedObjects st !! key1 = Some p →
    deserializedObjects st !! key2 = Some p →
    key1 = key2.

(** Every allocated storage is registered under a key. *)
Definition store_all_registered (st : Store) : Prop :=
  ∀ p, p < length (heap st) → ∃ key, deserializedObjects st !! key = Some p.

(** No storage has bytes yet. *)
Definition store_unfilled (st : Store) : Prop :=
  Forall (λ s, storage_data s = []) (heap st).

(** What the resolver keeps of the store of a load: the registry is
    one-to-one between the registered keys and the allocated storages,
    and the storages have no bytes yet. *)
Definition store_ok (st : Store) : Prop :=
  store_wf st ∧ store_inj st ∧ store_all_registered st
  ∧ size (deserializedObjects st) = length (heap st)
  ∧ store_unfilled st.

(** The three decodings of the header, up to the first that fails: the
    error [e] and the cursor [f1] of the failing decoding. *)
Definition header_decode_fails (E : Env) (f : Stream) (e : error) (f1 : Stream)
    : Prop :=
  unpickle E f = (Err e, f1)
  ∨ (∃ f0, unpickle E f = (Ok (VBigInt magic_number), f0)
           ∧ unpickle E f0 = (Err e, f1))
  ∨ (∃ f0 f0', unpickle E f = (Ok (VBigInt magic_number), f0)
               ∧ unpickle E f0 = (Ok (VInt protocolVersion), f0')
               ∧ unpickle E f0' = (Err e, f1)).


(** The calls [storageObj.SetFromFile(f)] on the storages at the
    addresses [ps], in this order, each on the storages and at the cursor
    that the call before left: all of them return no error, and leave the
    storages [h1] and the cursor [f1]. *)
Inductive reads_ok
    : list nat → list Storage → Stream → list Storage → Stream → Prop :=
| reads_ok_nil h f : reads_ok [] h f h f
| reads_ok_cons p ps h f h1 f1 h2 f2 :
    SetFromFile p h f = (None, h1, f1) →
    reads_ok ps h1 f1 h2 f2 →
    reads_ok (p :: ps) h f h2 f2.

(** The decoding [d], run from the store [st], comes to the decoding [d1]
    with the store [st1]: every call of a hook on the way returned a
    value. *)
Inductive run_reaches : Decoding → Store → Decoding → Store → Prop :=
| run_reaches_refl d st : run_reaches d st d st
| run_reaches_FindClass module name here k c st d1 st1 :
    pickleFindClass module name = Ok c →
    run_reaches (k c) st d1 st1 →
    run_reaches (DecFindClass module name here k) st d1 st1
| run_reaches_PersistentLoad savedId here k v st st0 d1 st1 :
    PersistentLoad savedId st = (Ok v, st0) →
    run_reaches (k v) st0 d1 st1 →
    run_reaches (DecPersistentLoad savedId here k) st d1 st1.

(** ** A small environment to run the loader in *)

Module Demo.

Definition storage_ref (rootKey : string) (viewMetadata : Value) : Value :=
  VTuple [VString "storage"; VStorageClass FloatStorageClass;
          VString rootKey; VString "cpu"; VInt 2; viewMetadata].




(** A decoder with one value per byte. *)
Definition decode (r : Stream) : outcome Value * Stream :=
  match r with
  | Byte.x01 :: rest => (Ok (VBigInt magic_number), rest)
  | Byte.x02 :: rest => (Ok (VInt 1001), rest)
  | Byte.x03 :: rest => (Ok VNil, rest)
  | Byte.x05 :: rest => (Ok (VList [VString "0"]), rest)
  | Byte.x06 :: rest => (Ok (VList [VString "0"; VString "9"]), rest)
  | Byte.x07 :: rest => (Ok (VInt 1000), rest)
  | Byte.x08 :: rest => (Ok (VBigInt 7), rest)
  | _ => (Err (ExternalError "pickle: unknown opcode"), r)
  end.

(** With hooks: byte 4 is a pair of two tensors on the storage ["0"]. *)
Definition decode_hooked (r : Stream) : Decoding :=
  match r with
  | Byte.x04 :: rest =>
      DecFindClass "torch" "FloatStorage" rest (λ c,
        let ref := VTuple [VString "storage"; c; VString "0"; VString "cpu";
                           VInt 2; VNil] in
        DecPersistentLoad ref rest (λ s1,
          DecPersistentLoad ref rest (λ s2,
            DecDone (Ok (VTuple [s1; s2])) rest)))
  | _ => let '(o, rest) := decode r in DecDone o rest
  end.

Definition payload : Stream :=
  [Byte.x10; Byte.x11; Byte.x12; Byte.x13; Byte.x14; Byte.x15; Byte.x16; Byte.x17].

Definition header : Stream := [Byte.x01; Byte.x02; Byte.x03].

(** Two tensors on one storage, and a key order with the unknown key
    ["9"]: once with the payload of the storage, once with a payload that
    ends too early. *)
Definition unknown_key_file : Stream :=
  header ++ [Byte.x04; Byte.x06] ++ payload.

Definition truncated_file : Stream :=
  header ++ [Byte.x04; Byte.x06] ++ [Byte.x10; Byte.x11; Byte.x12].

(** What the decoding of the object graph of these files leaves. *)
Definition graph : Value := VTuple [VStorage 0; VStorage 0].

Definition store : Store :=
  mkStore [mkStorage FloatStorageClass 2 "cpu" []] (<["0" := 0]> ∅).

Definition files : list (string * Stream) :=
  [("shared.pt", header ++ [Byte.x04; Byte.x05] ++ payload);
   ("unknown_key.pt", unknown_key_file);
   ("truncated.pt", truncated_file);
   ("bad_magic.pt", [Byte.x08; Byte.x02; Byte.x03]);
   ("version_1000.pt", [Byte.x01; Byte.x07; Byte.x03]);
   ("version_1001.pt", [Byte.x01; Byte.x02; Byte.x03])].

Fixpoint open (name : string) (fs : list (string * Stream)) : error + Stream :=
  match fs with
  | [] => inl (ExternalError "open: no such file or directory")
  | (n, content) :: fs' => if String.eqb n name then inr content else open name fs'
  end.

Definition env : Env :=
  {| Unpickler_Load := decode;
     Unpickler_Load_hooked := decode_hooked;
     zip_OpenReader := λ filename,
       if String.eqb filename "model.zip" then None
       else Some (ExternalError "zip: not a valid zip file");
     os_Open := λ filename, open filename files;
     tar_Next := λ _, Some tar_ErrHeader;
     f_Seek := λ _, None |}.

End Demo.

(** An environment with one file, to run the loader on a given content
    and a given answer of the tar reader. *)
Module Sample.

Definition decode (r : Stream) : outcome Value * Stream :=
  match r with
  | Byte.x0a :: rest => (Ok (VList []), rest)
  | Byte.x0b :: rest => (Ok (VTuple [VString "0"]), rest)
  | _ => Demo.decode r
  end.

(** With hooks: byte 9 is an object of a class that is not known. *)
Definition decode_hooked (r : Stream) : Decoding :=
  match r with
  | Byte.x09 :: rest =>
      DecFindClass "torch.nn" "Linear" rest (λ c, DecDone (Ok c) rest)
  | _ => Demo.decode_hooked r
  end.

Definition env (content : Stream) (tar : option error) : Env :=
  {| Unpickler_Load := decode;
     Unpickler_Load_hooked := decode_hooked;
     zip_OpenReader := λ _, Some (ExternalError "zip: not a valid zip file");
     os_Open := λ _, inr content;
     tar_Next := λ _, tar;
     f_Seek := λ _, None |}.

(** Two tensors on one storage and an empty key order. *)
Definition no_keys_file : Stream :=
  Demo.header ++ [Byte.x04; Byte.x0a] ++ Demo.payload.

(** Two tensors on one storage and a tuple where the key order is due. *)
Definition tuple_keys_file : Stream :=
  Demo.header ++ [Byte.x04; Byte.x0b] ++ Demo.payload.

(** An object of an unknown class. *)
Definition unknown_class_file : Stream :=
  Demo.header ++ [Byte.x09; Byte.x05].

(** A file that ends in the header. *)
Definition short_file : Stream := [Byte.x01; Byte.x02].

(** With hooks: byte 12 is a tensor on the storage ["0"] inside an object
    of a class that is not known. *)
Definition late_decode_hooked (r : Stream) : Decoding :=
  match r with
  | Byte.x0c :: rest =>
      DecFindClass "torch" "FloatStorage" rest (λ c,
        DecPersistentLoad
          (VTuple [VString "storage"; c; VString "0"; VString "cpu";
                   VInt 2; VNil]) rest (λ s,
          DecFindClass "torch.nn" "Linear" rest (λ c1,
            DecDone (Ok (VTuple [c1; s])) rest)))
  | _ => decode_hooked r
  end.

Definition late_env (content : Stream) : Env :=
  {| Unpickler_Load := decode;
     Unpickler_Load_hooked := late_decode_hooked;
     zip_OpenReader := λ _, Some (ExternalError "zip: not a valid zip file");
     os_Open := λ _, inr content;
     tar_Next := λ _, Some tar_ErrHeader;
     f_Seek := λ _, None |}.

Definition late_unknown_class_file : Stream :=
  Demo.header ++ [Byte.x0c; Byte.x05].

(** The store after records of the keys ["0"] and ["1"]. *)
Definition two_keys_store : Store :=
  mkStore [mkStorage FloatStorageClass 2 "cpu" [];
           mkStorage FloatStorageClass 2 "cpu" []]
          (<["1" := 1]> (<["0" := 0]> ∅)).

End Sample.

(** * Properties *)

(** ** The magic number *)

Lemma big_Text16_magic_number : big_Text16 magic_number = hexMagicNumber.
Proof. reflexivity. Qed.

(** Only the magic number prints as [hexMagicNumber]. *)
Lemma big_Text16_is_magic (n : Z) :
  big_Text16 n = hexMagicNumber → n = magic_number.
Proof.
  intros H. apply HexadecimalZ.to_int_inj.
  unfold big_Text16 in H.
  assert (Hp : NilZero.int_of_string (NilZero.string_of_int (Z.to_hex_int n))
               = Some (Z.to_hex_int magic_number)).
  { rewrite H. vm_compute. reflexivity. }
  destruct (Z.to_hex_int n) as [u|u]; destruct u;
    first [ discriminate H
          | rewrite NilZero.isi in Hp by discriminate; congruence ].
Qed.

Lemma magic_check (v : Value) :
  v ≠ VBigInt magic_number →
  match as_big_Int v with
  | Some n => negb (String.eqb (big_Text16 n) hexMagicNumber)
  | None => true
  end = true.
Proof.
  intros Hv. destruct v; simpl; try reflexivity.
  destruct (String.eqb_spec (big_Text16 n) hexMagicNumber) as [Heq|]; [|reflexivity].
  apply big_Text16_is_magic in Heq. congruence.
Qed.

(** ** The resolver on storage records *)

(** A well-typed storage record whose root key is registered: no
    allocation, the store stays as it is. *)
Lemma PersistentLoad_registered c rootKey location size vm st p :
  deserializedObjects st !! rootKey = Some p →
  PersistentLoad
    (VTuple [VString "storage"; VStorageClass c; VString rootKey;
             VString location; VInt size; vm]) st
  = switch_viewMetadata p vm st.
Proof.
  intros Hp. cbn. unfold bind, lookup_or_New. cbn. rewrite Hp. reflexivity.
Qed.

(** A well-typed storage record whose root key is new: one allocation by
    the class of the record, registered under the key. *)
Lemma PersistentLoad_fresh c rootKey location size vm st :
  deserializedObjects st !! rootKey = None →
  PersistentLoad
    (VTuple [VString "storage"; VStorageClass c; VString rootKey;
             VString location; VInt size; vm]) st
  = switch_viewMetadata (length (heap st)) vm
      (mkStore (heap st ++ [mkStorage c size location []])
               (<[rootKey := length (heap st)]> (deserializedObjects st))).
Proof.
  intros Hp. cbn. unfold bind, lookup_or_New. cbn. rewrite Hp. reflexivity.
Qed.

(** The type switch leaves the store alone. *)
Lemma switch_viewMetadata_store p vm st :
  (switch_viewMetadata p vm st).2 = st.
Proof.
  destruct vm; try reflexivity. cbn. destruct (negb _); reflexivity.
Qed.

Lemma switch_viewMetadata_Ok p vm st r st1 :
  switch_viewMetadata p vm st = (Ok r, st1) →
  vm = VNil ∧ r = VStorage p ∧ st1 = st.
Proof.
  destruct vm; cbn; try discriminate.
  - intros [= <- <-]. done.
  - destruct (negb _); discriminate.
Qed.

(** A tuple that starts with ["storage"] is a well-typed record with six
    elements, or the resolver fails on it with a storage-record error and
    leaves the store as it is. *)
Lemma storage_tuple_shape tuple st :
  tuple !! 0 = Some (VString "storage") →
  (∃ c rootKey location size vm,
     tuple = [VString "storage"; VStorageClass c; VString rootKey;
              VString location; VInt size; vm])
  ∨ (∃ e, PersistentLoad (VTuple tuple) st = (Err e, st)
          ∧ (length tuple ≠ 6
             ∧ e = Errorf "PersistentLoad: unexpected storage data length"
             ∨ e = Errorf "PersistentLoad: unexpected data types")).
Proof.
  intros H0.
  destruct tuple as [|e0 [|e1 [|e2 [|e3 [|e4 [|e5 [|e6 tl]]]]]]];
    simplify_eq/=;
    try (right; eexists; split; [reflexivity|]; left; split; [lia|done]).
  destruct e1; try (right; eexists; split; [reflexivity|]; by right).
  destruct e2; try (right; eexists; split; [reflexivity|]; by right).
  destruct e3; try (right; eexists; split; [reflexivity|]; by right).
  destruct e4; try (right; eexists; split; [reflexivity|]; by right).
  left. by eexists _, _, _, _, _.
Qed.

(** ** What a call of the resolver does to the store *)

(** A call leaves the store as it is, or registers one new key with one
    newly allocated storage. *)
Lemma PersistentLoad_store savedId st :
  (PersistentLoad savedId st).2 = st
  ∨ ∃ c rootKey location size,
      deserializedObjects st !! rootKey = None
      ∧ (PersistentLoad savedId st).2
        = mkStore (heap st ++ [mkStorage c size location []])
                  (<[rootKey := length (heap st)]> (deserializedObjects st)).
Proof.
  destruct savedId as [| | | |tuple| | | | | |]; try (by left).
  destruct tuple as [|e0 tl] eqn:Htuple; [by left|].
  destruct e0 as [| |typename| | | | | | | |]; try (by left).
  destruct (String.eqb_spec typename "storage") as [->|Hstorage].
  - destruct (storage_tuple_shape (VString "storage" :: tl) st eq_refl)
      as [(c & rootKey & location & size & vm & Heq)|(e & He & _)].
    + rewrite Heq.
      destruct (deserializedObjects st !! rootKey) as [p|] eqn:Hp.
      * left. rewrite (PersistentLoad_registered _ _ _ _ _ _ _ Hp).
        apply switch_viewMetadata_store.
      * right. exists c, rootKey, location, size. split; [done|].
        rewrite (PersistentLoad_fresh _ _ _ _ _ _ Hp).
        apply switch_viewMetadata_store.
    + left. by rewrite He.
  - left. cbn. unfold bind. cbn.
    destruct (String.eqb_spec typename "storage"); [done|].
    destruct (String.eqb typename "module"); reflexivity.
Qed.



(** Registered storages are allocated: an invariant of the resolver. *)
Lemma PersistentLoad_wf savedId st :
  store_wf st → store_wf (PersistentLoad savedId st).2.
Proof.
  intros Hwf.
  destruct (PersistentLoad_store savedId st)
    as [->|(c & rootKey & location & size & Hnew & ->)]; [done|].
  intros key p. cbn. rewrite length_app. cbn.
  destruct (decide (rootKey = key)) as [->|Hne].
  - rewrite lookup_insert_eq. intros [= <-]. lia.
  - rewrite lookup_insert_ne by done. intros Hp%Hwf. lia.
Qed.

Lemma empty_store_wf : store_wf empty_store.
Proof. intros key p. cbn. by rewrite lookup_empty. Qed.

Lemma run_Load_wf d st :
  store_wf st → store_wf (run_Load d st).1.2.
Proof.
  revert st. induction d as [r rest|module name here k IH|savedId here k IH];
    intros st Hwf; cbn.
  - done.
  - destruct (pickleFindClass module name); cbn; auto.
  - pose proof (PersistentLoad_wf savedId st Hwf) as Hwf1.
    destruct (PersistentLoad savedId st) as [[v|e|msg] st1]; cbn in *; auto.
Qed.

(** ** Properties of the resolver *)






(** C5. A tuple that starts with "storage" and has not six elements does
    not resolve: the resolver returns the error of the length of the
    storage data, which is a storage-record error and none of the other
    errors of the resolver, and leaves the store as it is. *)
Theorem C5_storage_length
    (tuple : list Value) (st : Store) :
  tuple !! 0 = Some (VString "storage") →
  length tuple ≠ 6 →
  ∃ e,
    PersistentLoad (VTuple tuple) st = (Err e, st)
    ∧ e = Errorf "PersistentLoad: unexpected storage data length"
    ∧ MalformedStorageRecord e
    ∧ ¬ UnexpectedPersistentIdType e
    ∧ e ≠ Errorf "PersistentLoad: non-empty tuple espected"
    ∧ e ≠ Errorf "PersistentLoad: cannot get typename"
    ∧ (∀ msg, e ≠ ExternalError msg).
Proof.
  intros H0 Hlen. eexists. split; [|split; [reflexivity|]].
  - destruct tuple as [|e0 [|e1 [|e2 [|e3 [|e4 [|e5 [|e6 tl]]]]]]];
      simplify_eq/=; reflexivity.
  - split; [by left|]. split; [|done].
    intros (typename & Heq). discriminate Heq.
Qed.

Lemma C5_witness :
  ∃ e,
    PersistentLoad (VTuple [VString "storage"; VStorageClass FloatStorageClass;
                            VString "0"]) empty_store = (Err e, empty_store)
    ∧ e = Errorf "PersistentLoad: unexpected storage data length"
    ∧ MalformedStorageRecord e
    ∧ ¬ UnexpectedPersistentIdType e
    ∧ e ≠ Errorf "PersistentLoad: non-empty tuple espected"
    ∧ e ≠ Errorf "PersistentLoad: cannot get typename"
    ∧ (∀ msg, e ≠ ExternalError msg).
Proof.
  apply (C5_storage_length
           [VString "storage"; VStorageClass FloatStorageClass; VString "0"]
           empty_store).
  - reflexivity.
  - cbn. lia.
Defined.

(** C6. A storage tuple of six elements with an element of a wrong type
    does not resolve: when the class is no storage class, the root key or
    the location no string, the size no integer, or the view metadata
    neither nil nor a sequence of three elements, the resolver returns a
    storage-record error. When the wrong type is among the first four,
    the store stays as it is. *)
Theorem C6_storage_types
    (e1 e2 e3 e4 viewMetadata : Value) (st : Store) :
  as_StorageClassInterface e1 = None
  ∨ as_string e2 = None
  ∨ as_string e3 = None
  ∨ as_int e4 = None
  ∨ (viewMetadata ≠ VNil ∧ ∀ vm, viewMetadata = VSlice vm → length vm ≠ 3) →
  ∃ e,
    (PersistentLoad
       (VTuple [VString "storage"; e1; e2; e3; e4; viewMetadata]) st).1 = Err e
    ∧ MalformedStorageRecord e
    ∧ (as_StorageClassInterface e1 = None ∨ as_string e2 = None
       ∨ as_string e3 = None ∨ as_int e4 = None →
       PersistentLoad
         (VTuple [VString "storage"; e1; e2; e3; e4; viewMetadata]) st
       = (Err (Errorf "PersistentLoad: unexpected data types"), st)).
Proof.
  intros Hbad.
  destruct (storage_tuple_shape
              [VString "storage"; e1; e2; e3; e4; viewMetadata] st eq_refl)
    as [(c & rootKey & location & size & vm & Heq)|(e & He & [[? _]| ->])].
  - simplify_eq/=.
    destruct Hbad as [?|[?|[?|[?|[Hnil Hlen]]]]]; try discriminate.
    assert (∃ e, ∀ p st', switch_viewMetadata p vm st' = (Err e, st')
                 ∧ MalformedStorageRecord e) as (e & Hsw).
    { destruct vm as [| | | | | |l| | | |]; try done;
        try (eexists; intros q s'; split;
             [reflexivity|by right; right; right]).
      specialize (Hlen l eq_refl).
      eexists. intros q s'. unfold switch_viewMetadata.
      apply Nat.eqb_neq in Hlen. rewrite Hlen. cbn.
      split; [reflexivity|by right; right; left]. }
    exists e. split; [|split; [apply (Hsw 0 st)|]].
    + destruct (deserializedObjects st !! rootKey) as [p|] eqn:Hp.
      * rewrite (PersistentLoad_registered _ _ _ _ _ _ _ Hp).
        by rewrite (proj1 (Hsw _ _)).
      * rewrite (PersistentLoad_fresh _ _ _ _ _ _ Hp).
        by rewrite (proj1 (Hsw _ _)).
    + intros [?|[?|[?|?]]]; discriminate.
  - done.
  - exists (Errorf "PersistentLoad: unexpected data types").
    rewrite He. split; [done|]. split; [by right; left|done].
Qed.

Lemma C6_witness :
  ∃ e,
    (PersistentLoad
       (VTuple [VString "storage"; VStorageClass FloatStorageClass;
                VInt 0; VString "cpu"; VInt 2; VNil]) empty_store).1 = Err e
    ∧ MalformedStorageRecord e
    ∧ (as_StorageClassInterface (VStorageClass FloatStorageClass) = None
       ∨ as_string (VInt 0) = None
       ∨ as_string (VString "cpu") = None ∨ as_int (VInt 2) = None →
       PersistentLoad
         (VTuple [VString "storage"; VStorageClass FloatStorageClass;
                  VInt 0; VString "cpu"; VInt 2; VNil]) empty_store
       = (Err (Errorf "PersistentLoad: unexpected data types"), empty_store)).
Proof.
  apply (C6_storage_types (VStorageClass FloatStorageClass) (VInt 0)
           (VString "cpu") (VInt 2) VNil empty_store).
  right. left. reflexivity.
Defined.

(** C9, as the code has it. A tuple that starts with "module" does not
    resolve: the resolver panics, whatever the other elements are, and
    leaves the store as it is; the decoding that called it ends with that
    panic. *)
Theorem C9_module_panics (fields : list Value) (st : Store) :
  PersistentLoad (VTuple (VString "module" :: fields)) st
  = (Panic "PersistentLoad module not implemented", st)
  ∧ ∀ here k,
      run_Load (DecPersistentLoad (VTuple (VString "module" :: fields)) here k) st
      = (Panic "PersistentLoad module not implemented", st, here).
Proof.
  assert (Hcall : PersistentLoad (VTuple (VString "module" :: fields)) st
                  = (Panic "PersistentLoad module not implemented", st))
    by reflexivity.
  split; [exact Hcall|].
  intros here k. cbn [run_Load]. by rewrite Hcall.
Qed.

(** C9 as stated fails: a module record, with its source fields or
    without, resolves to no value. *)
Lemma C9_counterexample :
  (PersistentLoad
     (VTuple [VString "module"; VOther "Linear"; VString "linear.py";
              VString "class Linear"]) empty_store).1
    = Panic "PersistentLoad module not implemented"
  ∧ (PersistentLoad
       (VTuple [VString "module"; VOther "Linear"; VNil; VNil]) empty_store).1
    = Panic "PersistentLoad module not implemented"
  ∧ ∀ r,
      (PersistentLoad
         (VTuple [VString "module"; VOther "Linear"; VString "linear.py";
                  VString "class Linear"]) empty_store).1 ≠ Ok r.
Proof. split; [reflexivity|]. split; [reflexivity|discriminate]. Qed.



(** ** The loader *)

Lemma Load_legacy_raw E filename f :
  legacy_raw E filename f → Load E filename = loadLegacyNoTar E f.
Proof.
  intros (Hzip & Hopen & Htar & Hseek).
  unfold Load, loadLegacyFile. by rewrite Hzip, Hopen, Htar, Hseek.
Qed.

Lemma loadLegacyNoTar_header_ok E f f3 :
  header_ok E f f3 → loadLegacyNoTar E f = loadLegacyNoTar_graph E f3.
Proof.
  intros (f1 & f2 & sys_info & H1 & H2 & H3).
  unfold loadLegacyNoTar, readAndCheckMagicNumber, readAndChecProtocolVersion,
    loadLegacyNoTar_sys_info.
  rewrite H1. cbn. rewrite H2. cbn. by rewrite H3.
Qed.

Lemma loadLegacyNoTar_decoded E f graph st storageKeys f5 :
  decoded E f graph st storageKeys f5 →
  loadLegacyNoTar E f
  = match set_storages_from_file storageKeys st f5 with
    | (Some err, h, f6) => mkLoaded (Err err) h f6
    | (None, h, f6) => mkLoaded (Ok graph) h f6
    end.
Proof.
  intros (f3 & f4 & raw & Hheader & Hgraph & Hkeys & Hmake).
  rewrite (loadLegacyNoTar_header_ok _ _ _ Hheader).
  unfold loadLegacyNoTar_graph. by rewrite Hgraph, Hkeys, Hmake.
Qed.

(** C3. When the first value decoded from a legacy file is not the magic
    number, [Load] fails with [ErrInvalidMagicNumber]; nothing more is
    decoded or read: the cursor of the file stays where the decoding of
    that first value left it, and no storage is allocated. *)
Theorem C3_invalid_magic_number
    (E : Env) (filename : string) (f f1 : Stream) (obj : Value) :
  legacy_raw E filename f →
  unpickle E f = (Ok obj, f1) →
  obj ≠ VBigInt magic_number →
  Load E filename = mkLoaded (Err ErrInvalidMagicNumber) [] f1.
Proof.
  intros Hraw Hobj Hne. rewrite (Load_legacy_raw _ _ _ Hraw).
  unfold loadLegacyNoTar, readAndCheckMagicNumber. rewrite Hobj.
  pose proof (magic_check obj Hne) as Hcheck.
  destruct (as_big_Int obj) as [n|]; [|reflexivity].
  by rewrite Hcheck.
Qed.

Lemma Demo_legacy_raw (filename : string) (f : Stream) :
  Demo.open filename Demo.files = inr f →
  legacy_raw Demo.env filename f.
Proof.
  intros Hopen. split; [|done].
  unfold isZipFile. cbn.
  destruct (String.eqb_spec filename "model.zip") as [->|]; [|done].
  discriminate Hopen.
Qed.

Lemma C3_witness :
  Load Demo.env "bad_magic.pt"
  = mkLoaded (Err ErrInvalidMagicNumber) [] [Byte.x02; Byte.x03].
Proof.
  apply (C3_invalid_magic_number Demo.env "bad_magic.pt"
           [Byte.x08; Byte.x02; Byte.x03] [Byte.x02; Byte.x03] (VBigInt 7)).
  - apply Demo_legacy_raw. reflexivity.
  - reflexivity.
  - discriminate.
Defined.

(** C4. When a legacy file passes the check of the magic number and the
    second value decoded is not the integer 1001, [Load] fails with
    [ErrInvalidProtocolVersion]; when it is 1001, the load goes on and
    decodes the system information. *)
Theorem C4_protocol_version
    (E : Env) (filename : string) (f f1 f2 : Stream) (obj : Value) :
  legacy_raw E filename f →
  unpickle E f = (Ok (VBigInt magic_number), f1) →
  unpickle E f1 = (Ok obj, f2) →
  (obj ≠ VInt 1001 →
   Load E filename = mkLoaded (Err ErrInvalidProtocolVersion) [] f2)
  ∧ (obj = VInt 1001 →
     Load E filename
     = match unpickle E f2 with
       | (Err e, f3) => mkLoaded (Err e) [] f3
       | (Panic msg, f3) => mkLoaded (Panic msg) [] f3
       | (Ok _, f3) => loadLegacyNoTar_graph E f3
       end).
Proof.
  intros Hraw Hmagic Hobj. rewrite (Load_legacy_raw _ _ _ Hraw).
  unfold loadLegacyNoTar, readAndCheckMagicNumber, readAndChecProtocolVersion.
  rewrite Hmagic. cbn. rewrite Hobj. split.
  - intros Hne. destruct obj as [|n| | | | | | | | |]; try reflexivity.
    cbn. destruct (Z.eqb_spec n protocolVersion) as [->|]; [done|reflexivity].
  - intros ->. reflexivity.
Qed.

Lemma C4_witness :
  Load Demo.env "version_1000.pt"
  = mkLoaded (Err ErrInvalidProtocolVersion) [] [Byte.x03].
Proof.
  apply (C4_protocol_version Demo.env "version_1000.pt"
           [Byte.x01; Byte.x07; Byte.x03] [Byte.x07; Byte.x03] [Byte.x03]
           (VInt 1000)).
  - apply Demo_legacy_raw. reflexivity.
  - reflexivity.
  - reflexivity.
  - discriminate.
Defined.

(** C8, as the code has it. For a file that [isZipFile] takes for a zip
    archive, [Load] returns no error: it panics, before it opens or reads
    the file. *)
Theorem C8_zip_panics (E : Env) (filename : string) :
  isZipFile E filename = true →
  Load E filename = mkLoaded (Panic "loadZipFile not implemented") [] [].
Proof. intros Hzip. unfold Load. by rewrite Hzip. Qed.

Lemma C8_witness :
  Load Demo.env "model.zip"
  = mkLoaded (Panic "loadZipFile not implemented") [] [].
Proof. apply (C8_zip_panics Demo.env "model.zip"). reflexivity. Defined.

(** C8 as stated fails: for the zip archive of [Demo.env], [Load] returns
    no error to its caller. *)
Lemma C8_counterexample :
  isZipFile Demo.env "model.zip" = true
  ∧ result (Load Demo.env "model.zip") = Panic "loadZipFile not implemented"
  ∧ ∀ e, result (Load Demo.env "model.zip") ≠ Err e.
Proof. split; [reflexivity|]. split; [reflexivity|discriminate]. Qed.

(** ** The loop over the storage keys *)

(** The loop over [pre ++ rest] is the loop over [pre], then, when that
    one met no error, the loop over [rest]. *)
Lemma set_storages_from_file_app pre rest st f :
  set_storages_from_file (pre ++ rest) st f
  = match set_storages_from_file pre st f with
    | (Some err, h, f1) => (Some err, h, f1)
    | (None, h, f1) =>
        set_storages_from_file rest (mkStore h (deserializedObjects st)) f1
    end.
Proof.
  revert st f. induction pre as [|key pre IH]; intros st f; cbn.
  - by destruct st.
  - destruct (deserializedObjects st !! key) as [p|]; [|done].
    destruct (SetFromFile p (heap st) f) as [[[err|] h] f1]; [done|].
    by rewrite IH.
Qed.

(** On an allocated storage [SetFromFile] keeps the number of storages,
    and its only error is the end of the file. *)
Lemma SetFromFile_allocated p h f :
  p < length h →
  match SetFromFile p h f with
  | (Some err, _, _) => err = io_ErrUnexpectedEOF
  | (None, h1, _) => length h1 = length h
  end.
Proof.
  intros Hp. unfold SetFromFile.
  destruct (lookup_lt_is_Some_2 h p Hp) as [s ->].
  destruct (length f <? payload_length s); [done|].
  by rewrite length_insert.
Qed.

(** When all keys are registered, the loop stops only at the end of the
    file. *)
Lemma set_storages_from_file_registered keys st f :
  store_wf st →
  (∀ key, key ∈ keys → is_Some (deserializedObjects st !! key)) →
  match set_storages_from_file keys st f with
  | (Some err, _, _) => err = io_ErrUnexpectedEOF
  | (None, h, _) => length h = length (heap st)
  end.
Proof.
  revert st f. induction keys as [|key keys IH]; intros st f Hwf Hreg; cbn.
  - done.
  - destruct (Hreg key) as [p Hp]; [by left|]. rewrite Hp.
    pose proof (SetFromFile_allocated p (heap st) f (Hwf _ _ Hp)) as Hset.
    destruct (SetFromFile p (heap st) f) as [[[err|] h] f1]; [done|].
    specialize (IH (mkStore h (deserializedObjects st)) f1).
    cbn in IH. rewrite Hset in IH. apply IH.
    + intros k q Hq. cbn in *. rewrite Hset. by apply (Hwf k).
    + intros k Hk. apply Hreg. by right.
Qed.

Lemma decoded_wf E f graph st storageKeys f5 :
  decoded E f graph st storageKeys f5 → store_wf st.
Proof.
  intros (f3 & f4 & raw & _ & Hgraph & _).
  pose proof (run_Load_wf (Unpickler_Load_hooked E f3) empty_store
                empty_store_wf) as Hwf.
  by rewrite Hgraph in Hwf.
Qed.

(** On keys that are registered, the loop is the sequence of the calls of
    [SetFromFile] on their storages: it ends without error when all the
    calls do, and with the error of the first call that fails, on the
    storages and at the cursor that this call left. *)
Lemma set_storages_from_file_reads keys ps st f :
  Forall2 (λ key p, deserializedObjects st !! key = Some p) keys ps →
  match set_storages_from_file keys st f with
  | (None, h, f1) => reads_ok ps (heap st) f h f1
  | (Some err, h, f1) =>
      ∃ ps1 p ps2 h0 f0,
        ps = ps1 ++ p :: ps2
        ∧ reads_ok ps1 (heap st) f h0 f0
        ∧ SetFromFile p h0 f0 = (Some err, h, f1)
  end.
Proof.
  intros Hreg. revert f.
  remember (deserializedObjects st) as reg eqn:Hr.
  assert (Hst : ∀ h, deserializedObjects (mkStore h reg) = reg) by done.
  rewrite <- (Hst (heap st)) in Hr.
  assert (Heq : st = mkStore (heap st) reg) by (destruct st; cbn in *; congruence).
  rewrite Heq. clear Heq Hr. generalize (heap st) as h. clear st.
  induction Hreg as [|key p keys ps Hkey _ IH]; intros h f; cbn.
  - constructor.
  - rewrite Hkey.
    destruct (SetFromFile p h f) as [[[err|] h1] f1] eqn:Hset.
    + exists [], p, ps, h, f. split; [done|]. split; [constructor|done].
    + specialize (IH h1 f1).
      destruct (set_storages_from_file keys (mkStore h1 reg) f1)
        as [[[err|] h2] f2].
      * destruct IH as (ps1 & q & ps2 & h0 & f0 & -> & Hok & Hfail).
        exists (p :: ps1), q, ps2, h0, f0. split; [done|].
        split; [by econstructor|done].
      * by econstructor.
Qed.

(** C7, as the code has it. When the key order of a legacy file has a
    key without a registered storage, [Load] returns an error and no
    result. For the keys before the first such key, [SetFromFile] is
    called on their storages, in the order of the keys, each call at the
    cursor that the one before left. When all these calls return no
    error, [Load] fails with the error of the unknown storage key, for
    that key, with the storages as the calls filled them and the cursor
    where the last call left it: nothing is read for that key or a later
    one. When one of the calls returns an error, no later call is made
    and [Load] fails with that error. *)
Theorem C7_unknown_storage_key
    (E : Env) (filename : string) (f f5 : Stream) (graph : Value) (st : Store)
    (pre post : list string) (ps : list nat) (key : string) :
  legacy_raw E filename f →
  decoded E f graph st (pre ++ key :: post) f5 →
  Forall2 (λ k p, deserializedObjects st !! k = Some p) pre ps →
  deserializedObjects st !! key = None →
  (∃ e, result (Load E filename) = Err e)
  ∧ ((∃ h f6,
        reads_ok ps (heap st) f5 h f6
        ∧ Load E filename
          = mkLoaded
              (Err (Errorf ("storage object not found for key '"
                            +:+ key +:+ "'")))
              h f6
        ∧ UnknownStorageKey
            (Errorf ("storage object not found for key '" +:+ key +:+ "'")))
     ∨ (∃ ps1 p ps2 h0 f0 err h f6,
          ps = ps1 ++ p :: ps2
          ∧ reads_ok ps1 (heap st) f5 h0 f0
          ∧ SetFromFile p h0 f0 = (Some err, h, f6)
          ∧ Load E filename = mkLoaded (Err err) h f6)).
Proof.
  intros Hraw Hdec Hpre Hkey.
  rewrite (Load_legacy_raw _ _ _ Hraw), (loadLegacyNoTar_decoded _ _ _ _ _ _ Hdec).
  rewrite set_storages_from_file_app.
  pose proof (set_storages_from_file_reads pre ps st f5 Hpre) as Hloop.
  destruct (set_storages_from_file pre st f5) as [[[err|] h] f6].
  - split; [by eexists|]. right.
    destruct Hloop as (ps1 & p & ps2 & h0 & f0 & Hps & Hok & Hfail).
    by exists ps1, p, ps2, h0, f0, err, h, f6.
  - cbn. rewrite Hkey. split; [by eexists|]. left.
    exists h, f6. split; [done|]. split; [done|by eexists].
Qed.

Lemma Demo_decoded (f5 : Stream) :
  decoded Demo.env (Demo.header ++ [Byte.x04; Byte.x06] ++ f5)
    Demo.graph Demo.store ["0"; "9"] f5.
Proof.
  exists ([Byte.x04; Byte.x06] ++ f5), ([Byte.x06] ++ f5),
    (VList [VString "0"; VString "9"]).
  split; [|split; [|split]].
  - exists ([Byte.x02; Byte.x03; Byte.x04; Byte.x06] ++ f5),
      ([Byte.x03; Byte.x04; Byte.x06] ++ f5), VNil.
    split; [|split]; reflexivity.
  - vm_compute. reflexivity.
  - reflexivity.
  - reflexivity.
Qed.

Lemma C7_witness :
  (∃ e, result (Load Demo.env "unknown_key.pt") = Err e)
  ∧ ((∃ h f6,
        reads_ok [0] (heap Demo.store) Demo.payload h f6
        ∧ Load Demo.env "unknown_key.pt"
          = mkLoaded
              (Err (Errorf ("storage object not found for key '"
                            +:+ "9" +:+ "'")))
              h f6
        ∧ UnknownStorageKey
            (Errorf ("storage object not found for key '" +:+ "9" +:+ "'")))
     ∨ (∃ ps1 p ps2 h0 f0 err h f6,
          [0] = ps1 ++ p :: ps2
          ∧ reads_ok ps1 (heap Demo.store) Demo.payload h0 f0
          ∧ SetFromFile p h0 f0 = (Some err, h, f6)
          ∧ Load Demo.env "unknown_key.pt" = mkLoaded (Err err) h f6)).
Proof.
  apply (C7_unknown_storage_key Demo.env "unknown_key.pt"
           Demo.unknown_key_file Demo.payload Demo.graph Demo.store
           ["0"] [] [0] "9").
  - apply Demo_legacy_raw. reflexivity.
  - apply Demo_decoded.
  - constructor; [vm_compute; reflexivity|constructor].
  - vm_compute. reflexivity.
Defined.

(** C7 as stated fails: the key order of [Demo.truncated_file] has the
    unknown key ["9"] after the key ["0"], the file ends within the
    payload of the storage ["0"], so that [SetFromFile] fails on it, and
    [Load] fails with the error of that call, which is not the error of
    an unknown storage key. *)
Lemma C7_counterexample :
  legacy_raw Demo.env "truncated.pt" Demo.truncated_file
  ∧ decoded Demo.env Demo.truncated_file Demo.graph Demo.store ["0"; "9"]
      [Byte.x10; Byte.x11; Byte.x12]
  ∧ deserializedObjects Demo.store !! "9" = None
  ∧ ∃ e,
      (SetFromFile 0 (heap Demo.store) [Byte.x10; Byte.x11; Byte.x12]).1.1
      = Some e
      ∧ result (Load Demo.env "truncated.pt") = Err e
      ∧ ¬ UnknownStorageKey e.
Proof.
  split; [apply Demo_legacy_raw; reflexivity|].
  split; [apply Demo_decoded|].
  split; [vm_compute; reflexivity|].
  eexists. split; [vm_compute; reflexivity|].
  split; [vm_compute; reflexivity|].
  intros (key & Hkey). discriminate Hkey.
Qed.

(** ** The load as a whole *)

(** The stores of a decoding are linked by calls of the resolver. *)
Lemma run_Load_resolutions d st : resolutions st (run_Load d st).1.2.
Proof.
  revert st. induction d as [r rest|module name here k IH|savedId here k IH];
    intros st; cbn.
  - apply resolutions_refl.
  - destruct (pickleFindClass module name); cbn; auto using resolutions_refl.
  - destruct (PersistentLoad savedId st) as [[v|e|msg] st1] eqn:Hcall; cbn.
    + eapply resolutions_step; [exact Hcall|apply IH].
    + eapply resolutions_step; [exact Hcall|apply resolutions_refl].
    + eapply resolutions_step; [exact Hcall|apply resolutions_refl].
Qed.

(** Two tensors on the storage ["0"]: both references are the one storage
    at address 0, filled with the payload of the file. *)
Example Load_shared_storage :
  Load Demo.env "shared.pt"
  = mkLoaded (Ok (VTuple [VStorage 0; VStorage 0]))
      [mkStorage FloatStorageClass 2 "cpu" Demo.payload] [].
Proof. vm_compute. reflexivity. Qed.

(** * Further properties *)

(** ** [makeStorageKeys] *)

Lemma storage_keys_of_strings (keys : list string) :
  storage_keys_of (VString <$> keys) = Ok keys.
Proof.
  induction keys as [|key keys IH]; cbn; [done|]. by rewrite IH.
Qed.

Lemma storage_keys_of_Ok (raw : list Value) (keys : list string) :
  storage_keys_of raw = Ok keys → raw = VString <$> keys.
Proof.
  revert keys. induction raw as [|rawKey raw IH]; intros keys; cbn.
  - by intros [= <-].
  - destruct rawKey; cbn; try discriminate.
    destruct (storage_keys_of raw) as [keys'| |]; try discriminate.
    intros [= <-]. cbn. by rewrite (IH keys').
Qed.

(** X1. [makeStorageKeys] returns the keys [keys] exactly for a list whose
    elements are the strings [keys], in that order: the keys of a list of
    strings come back as they are, and no other value (a tuple, a slice,
    a list with another element) gives keys. *)
Theorem X1_makeStorageKeys_iff (obj : Value) (keys : list string) :
  makeStorageKeys obj = Ok keys ↔ obj = VList (VString <$> keys).
Proof.
  split.
  - destruct obj; cbn; try discriminate.
    intros Hkeys%storage_keys_of_Ok. by rewrite Hkeys.
  - intros ->. cbn. apply storage_keys_of_strings.
Qed.

(** X2. On any other value [makeStorageKeys] returns an error and does
    not panic: the error of the storage keys data for a value that is no
    list, the error of the storage key for a list with an element that is
    no string. *)
Theorem X2_makeStorageKeys_errors (obj : Value) :
  (∀ keys, obj ≠ VList (VString <$> keys)) →
  (as_List obj = None
   ∧ makeStorageKeys obj = Err (Errorf "invalid storage keys data"))
  ∨ (∃ raw rawKey, obj = VList raw ∧ rawKey ∈ raw ∧ as_string rawKey = None
       ∧ makeStorageKeys obj = Err (Errorf "invalid storage key")).
Proof.
  intros Hobj.
  destruct obj as [| | | | |raw| | | | |]; try (by left).
  right. exists raw. cbn.
  assert (Hraw : ∀ keys, raw ≠ VString <$> keys) by (intros keys ->; by eapply Hobj).
  clear Hobj. induction raw as [|v raw IH].
  - by destruct (Hraw []).
  - destruct (as_string v) as [key|] eqn:Hv.
    + destruct v; try discriminate. cbn in Hv. simplify_eq.
      destruct IH as (rawKey & _ & Hin & Hno & Herr).
      { intros keys ->. by apply (Hraw (key :: keys)). }
      exists rawKey. split; [done|]. split; [by right|]. split; [done|].
      cbn. by rewrite Herr.
    + exists v. split; [done|]. split; [by left|]. split; [done|].
      cbn. by rewrite Hv.
Qed.

Lemma X2_witness :
  (as_List (VTuple [VString "0"]) = None
   ∧ makeStorageKeys (VTuple [VString "0"])
     = Err (Errorf "invalid storage keys data"))
  ∨ (∃ raw rawKey, VTuple [VString "0"] = VList raw ∧ rawKey ∈ raw
       ∧ as_string rawKey = None
       ∧ makeStorageKeys (VTuple [VString "0"])
         = Err (Errorf "invalid storage key")).
Proof.
  apply (X2_makeStorageKeys_errors (VTuple [VString "0"])).
  intros keys. discriminate.
Defined.

(** ** The checks of the header *)

(** X3. [readAndCheckMagicNumber] returns no error exactly when the
    decoder returns the magic number as a big integer; the cursor is then
    where the decoder left it. *)
Theorem X3_readAndCheckMagicNumber_Ok (E : Env) (r r1 : Stream) :
  readAndCheckMagicNumber E r = (Ok tt, r1)
  ↔ unpickle E r = (Ok (VBigInt magic_number), r1).
Proof.
  unfold readAndCheckMagicNumber. split.
  - destruct (unpickle E r) as [[obj|e|msg] r2]; try discriminate.
    destruct obj as [| | |n| | | | | | |]; cbn; try discriminate.
    destruct (String.eqb_spec (big_Text16 n) hexMagicNumber) as [Hn|];
      cbn; [|discriminate].
    intros [= <-]. by rewrite (big_Text16_is_magic n Hn).
  - intros ->. reflexivity.
Qed.

(** X4. [readAndChecProtocolVersion] returns no error exactly when the
    decoder returns the integer 1001; the cursor is then where the
    decoder left it. *)
Theorem X4_readAndChecProtocolVersion_Ok (E : Env) (r r1 : Stream) :
  readAndChecProtocolVersion E r = (Ok tt, r1)
  ↔ unpickle E r = (Ok (VInt 1001), r1).
Proof.
  unfold readAndChecProtocolVersion. split.
  - destruct (unpickle E r) as [[obj|e|msg] r2]; try discriminate.
    destruct obj as [|n| | | | | | | | |]; cbn; try discriminate.
    destruct (Z.eqb_spec n protocolVersion) as [->|]; cbn; [|discriminate].
    by intros [= <-].
  - intros ->. reflexivity.
Qed.

(** X5. An error of the decoder on one of the three values of the header
    (the magic number, the protocol version, the system information) is
    the error of [Load], as it is; the cursor stays where the failing
    decoding left it and no storage is allocated. *)
Theorem X5_header_decode_error
    (E : Env) (filename : string) (f f1 : Stream) (e : error) :
  legacy_raw E filename f →
  header_decode_fails E f e f1 →
  Load E filename = mkLoaded (Err e) [] f1.
Proof.
  intros Hraw Hfail. rewrite (Load_legacy_raw _ _ _ Hraw).
  unfold loadLegacyNoTar, readAndCheckMagicNumber, readAndChecProtocolVersion,
    loadLegacyNoTar_sys_info.
  destruct Hfail as [H1|[(f0 & H1 & H2)|(f0 & f0' & H1 & H2 & H3)]];
    rewrite H1; cbn; [done|..]; rewrite H2; cbn; [done|].
  by rewrite H3.
Qed.

Lemma Sample_legacy_raw (content : Stream) (filename : string) :
  legacy_raw (Sample.env content (Some tar_ErrHeader)) filename content.
Proof. by repeat split. Qed.

Lemma X5_witness :
  Load (Sample.env Sample.short_file (Some tar_ErrHeader)) "short.pt"
  = mkLoaded (Err (ExternalError "pickle: unknown opcode")) [] [].
Proof.
  apply (X5_header_decode_error _ "short.pt" Sample.short_file).
  - apply Sample_legacy_raw.
  - right. right. exists [Byte.x02], []. split; [|split]; reflexivity.
Defined.

(** ** [pickleFindClass] *)

(** X6. [pickleFindClass] gives the storage class [c] exactly for the
    name of [c]: each of the nine storage classes is found, under one
    full name, and the full names of different classes differ. Only the
    joined name [module.name] counts, not where it is split. *)
Theorem X6_pickleFindClass_storage_class
    (module name : string) (c : StorageClass) :
  pickleFindClass module name = Ok (VStorageClass c)
  ↔ module +:+ "." +:+ name = StorageClass_name c.
Proof.
  unfold pickleFindClass. split.
  - repeat match goal with
           | |- context [String.eqb ?a ?b] => destruct (String.eqb_spec a b)
           end; intros [=]; subst; done.
  - intros ->. by destruct c.
Qed.

(** X7. [pickleFindClass] never panics. For one of the ten known names
    it returns the tensor builder or a storage class; for any other name
    it returns the error that names the module and the class. *)
Theorem X7_pickleFindClass_total (module name : string) :
  match pickleFindClass module name with
  | Ok v =>
      (module +:+ "." +:+ name) ∈ known_class_names
      ∧ (v = VRebuildTensorV2 ∨ ∃ c, v = VStorageClass c)
  | Err e =>
      ((module +:+ "." +:+ name) ∉ known_class_names)
      ∧ e = Errorf ("class no found: " +:+ module +:+ " " +:+ name)
  | Panic _ => False
  end.
Proof.
  unfold pickleFindClass, known_class_names. cbn [map StorageClass_name].
  repeat match goal with
         | |- context [String.eqb ?a ?b] =>
             destruct (String.eqb_spec a b) as [->|?]
         end;
    try (split; [rewrite !elem_of_cons; tauto|by eauto]).
  split; [|done]. rewrite !elem_of_cons, elem_of_nil. tauto.
Qed.

(** ** What the resolver keeps *)

Lemma PersistentLoad_ok savedId st :
  store_ok st → store_ok (PersistentLoad savedId st).2.
Proof.
  intros (Hwf & Hinj & Hall & Hsize & Hdata).
  destruct (PersistentLoad_store savedId st)
    as [->|(c & rootKey & location & size & Hnew & Hst)]; [done|].
  split; [by apply PersistentLoad_wf|]. rewrite Hst. clear Hst.
  unfold store_inj, store_all_registered, store_unfilled. cbn.
  split; [|split; [|split]].
  - intros key1 key2 p.
    destruct (decide (rootKey = key1)) as [<-|H1],
      (decide (rootKey = key2)) as [<-|H2]; [done|..].
    + rewrite lookup_insert_eq, lookup_insert_ne by done.
      intros [= <-] Hp%Hwf. lia.
    + rewrite lookup_insert_eq, lookup_insert_ne by done.
      intros Hp%Hwf [= <-]. lia.
    + rewrite !lookup_insert_ne by done. apply Hinj.
  - intros p. rewrite length_app. cbn. intros Hp.
    destruct (decide (p = length (heap st))) as [->|Hne].
    + exists rootKey. apply lookup_insert_eq.
    + destruct (Hall p) as [key Hkey]; [lia|]. exists key.
      rewrite lookup_insert_ne; [done|]. congruence.
  - rewrite map_size_insert_None by done. rewrite length_app. cbn. lia.
  - apply Forall_app. split; [done|]. by repeat constructor.
Qed.

Lemma empty_store_ok : store_ok empty_store.
Proof.
  split; [apply empty_store_wf|].
  split; [intros key1 key2 p; cbn; by rewrite lookup_empty|].
  split; [intros p; cbn; lia|]. split; [done|]. constructor.
Qed.

Lemma resolutions_ok st st1 :
  resolutions st st1 → store_ok st → store_ok st1.
Proof.
  induction 1 as [|st savedId r st1 st2 Hcall _ IH]; [done|].
  intros Hok. apply IH.
  pose proof (PersistentLoad_ok savedId st Hok) as Hok1.
  by rewrite Hcall in Hok1.
Qed.

Lemma two_keys_store_reached : resolutions empty_store Sample.two_keys_store.
Proof.
  eapply (resolutions_step _ (Demo.storage_ref "0" VNil)).
  { vm_compute. reflexivity. }
  eapply (resolutions_step _ (Demo.storage_ref "1" VNil)).
  { vm_compute. reflexivity. }
  apply resolutions_refl.
Qed.

(** X8. In a load, records with different root keys resolve to different
    storages: in every store that calls of the resolver make from the
    empty store, two different registered keys have different storages,
    both allocated. *)
Theorem X8_different_keys_different_storages
    (st : Store) (key1 key2 : string) (p1 p2 : nat) :
  resolutions empty_store st →
  deserializedObjects st !! key1 = Some p1 →
  deserializedObjects st !! key2 = Some p2 →
  key1 ≠ key2 →
  p1 ≠ p2 ∧ is_Some (heap st !! p1) ∧ is_Some (heap st !! p2).
Proof.
  intros Hres H1 H2 Hne.
  destruct (resolutions_ok _ _ Hres empty_store_ok) as (Hwf & Hinj & _).
  split; [|split].
  - intros ->. by apply Hne, (Hinj key1 key2 p2).
  - apply lookup_lt_is_Some_2. by apply (Hwf key1).
  - apply lookup_lt_is_Some_2. by apply (Hwf key2).
Qed.

Lemma X8_witness :
  0 ≠ 1 ∧ is_Some (heap Sample.two_keys_store !! 0)
  ∧ is_Some (heap Sample.two_keys_store !! 1).
Proof.
  apply (X8_different_keys_different_storages Sample.two_keys_store "0" "1").
  - apply two_keys_store_reached.
  - vm_compute. reflexivity.
  - vm_compute. reflexivity.
  - discriminate.
Defined.

(** X9. In a load, there are as many storages as registered keys: the
    resolver allocates one storage for each key and no other, and every
    storage it allocated is registered under a key. *)
Theorem X9_one_storage_per_key (st : Store) :
  resolutions empty_store st →
  length (heap st) = size (deserializedObjects st)
  ∧ ∀ p, p < length (heap st) → ∃ key, deserializedObjects st !! key = Some p.
Proof.
  intros Hres.
  destruct (resolutions_ok _ _ Hres empty_store_ok)
    as (_ & _ & Hall & Hsize & _).
  split; [done|apply Hall].
Qed.

Lemma X9_witness :
  length (heap Sample.two_keys_store)
  = size (deserializedObjects Sample.two_keys_store)
  ∧ ∀ p, p < length (heap Sample.two_keys_store) →
      ∃ key, deserializedObjects Sample.two_keys_store !! key = Some p.
Proof.
  apply (X9_one_storage_per_key Sample.two_keys_store).
  apply two_keys_store_reached.
Defined.

(** X10. The resolver only adds: after any calls, the storages allocated
    before are still there, at their addresses and as they were, and the
    keys registered before still have their storages. *)
Theorem X10_resolver_only_adds (st st1 : Store) :
  resolutions st st1 →
  heap st `prefix_of` heap st1
  ∧ deserializedObjects st ⊆ deserializedObjects st1.
Proof.
  induction 1 as [|st savedId r st1 st2 Hcall _ [IHh IHr]]; [done|].
  assert (heap st `prefix_of` heap st1
          ∧ deserializedObjects st ⊆ deserializedObjects st1) as [Hh Hr].
  { destruct (PersistentLoad_store savedId st)
      as [Hst|(c & rootKey & location & size & Hnew & Hst)];
      rewrite Hcall in Hst; cbn in Hst; subst st1; [done|].
    cbn. split; [by apply prefix_app_r|by apply insert_subseteq]. }
  split; [by etrans|by etrans].
Qed.

Lemma X10_witness :
  heap Demo.store `prefix_of` heap Sample.two_keys_store
  ∧ deserializedObjects Demo.store
    ⊆ deserializedObjects Sample.two_keys_store.
Proof.
  apply (X10_resolver_only_adds Demo.store Sample.two_keys_store).
  eapply (resolutions_step _ (Demo.storage_ref "1" VNil)).
  { vm_compute. reflexivity. }
  apply resolutions_refl.
Defined.

(** X11. A record with a registered root key resolves to the registered
    storage whatever class, location and size the record itself carries:
    these are not compared with those of the storage, and the store stays
    as it is. *)
Theorem X11_registered_key_ignores_fields
    (c : StorageClass) (rootKey location : string) (size : Z)
    (st : Store) (p : nat) :
  deserializedObjects st !! rootKey = Some p →
  PersistentLoad (storage_tuple c rootKey location size VNil) st
  = (Ok (VStorage p), st).
Proof.
  intros Hp. unfold storage_tuple.
  by rewrite (PersistentLoad_registered _ _ _ _ _ _ _ Hp).
Qed.

Lemma X11_witness :
  PersistentLoad (storage_tuple LongStorageClass "0" "cuda:0" 99 VNil) Demo.store
  = (Ok (VStorage 0), Demo.store).
Proof.
  apply (X11_registered_key_ignores_fields LongStorageClass "0" "cuda:0" 99
           Demo.store 0).
  vm_compute. reflexivity.
Defined.

(** X12. The root storage is registered before the view metadata is
    looked at: a well-typed record with a new root key and view metadata
    other than nil resolves to no value, and yet its storage is allocated
    and registered under the root key. *)
Theorem X12_storage_registered_before_view
    (c : StorageClass) (rootKey location : string) (size : Z)
    (viewMetadata : Value) (st : Store) :
  deserializedObjects st !! rootKey = None →
  viewMetadata ≠ VNil →
  (PersistentLoad (storage_tuple c rootKey location size viewMetadata) st).2
  = mkStore (heap st ++ [mkStorage c size location []])
            (<[rootKey := length (heap st)]> (deserializedObjects st))
  ∧ ∀ r,
      (PersistentLoad (storage_tuple c rootKey location size viewMetadata) st).1
      ≠ Ok r.
Proof.
  intros Hnew Hvm. unfold storage_tuple.
  rewrite (PersistentLoad_fresh _ _ _ _ _ _ Hnew).
  split; [apply switch_viewMetadata_store|].
  intros r Hr.
  destruct (switch_viewMetadata _ viewMetadata _) as [o st1] eqn:Hsw.
  cbn in Hr. subst o.
  by apply switch_viewMetadata_Ok in Hsw as (-> & _).
Qed.

Lemma X12_witness :
  (PersistentLoad
     (storage_tuple FloatStorageClass "0" "cpu" 2 (VTuple [])) empty_store).2
  = mkStore (heap empty_store ++ [mkStorage FloatStorageClass 2 "cpu" []])
            (<["0" := length (heap empty_store)]>
               (deserializedObjects empty_store))
  ∧ ∀ r,
      (PersistentLoad
         (storage_tuple FloatStorageClass "0" "cpu" 2 (VTuple [])) empty_store).1
      ≠ Ok r.
Proof.
  apply (X12_storage_registered_before_view FloatStorageClass "0" "cpu" 2
           (VTuple []) empty_store).
  - reflexivity.
  - discriminate.
Defined.

(** ** [loadLegacyFile] on tar archives *)

(** X13. [Load] goes on to decode a file that is no zip archive only when
    the tar reader reports an invalid header. When the tar reader reads a
    first header without error, [Load] returns a nil value and a nil
    error; when it reports the end of the archive, [Load] panics; any
    other error of the tar reader is returned. In all these cases nothing
    is decoded and no storage is allocated. *)
Theorem X13_Load_tar
    (E : Env) (filename : string) (f : Stream) :
  isZipFile E filename = false →
  os_Open E filename = inr f →
  tar_Next E f ≠ Some tar_ErrHeader →
  result (Load E filename)
  = match tar_Next E f with
    | None => Ok VNil
    | Some io_EOF => Panic "legacy load from tar not implemented"
    | Some err => Err err
    end
  ∧ storages (Load E filename) = [].
Proof.
  intros Hzip Hopen Htar. unfold Load, loadLegacyFile.
  rewrite Hzip, Hopen. cbn.
  destruct (tar_Next E f) as [[| | | | | |]|]; done.
Qed.

Lemma X13_witness :
  result (Load (Sample.env Sample.short_file None) "model.tar")
  = match tar_Next (Sample.env Sample.short_file None) Sample.short_file with
    | None => Ok VNil
    | Some io_EOF => Panic "legacy load from tar not implemented"
    | Some err => Err err
    end
  ∧ storages (Load (Sample.env Sample.short_file None) "model.tar") = [].
Proof.
  apply (X13_Load_tar (Sample.env Sample.short_file None) "model.tar"
           Sample.short_file).
  - reflexivity.
  - reflexivity.
  - discriminate.
Defined.

(** ** The load after the header *)

Lemma decoded_ok E f graph st storageKeys f5 :
  decoded E f graph st storageKeys f5 → store_ok st.
Proof.
  intros (f3 & f4 & raw & _ & Hgraph & _).
  pose proof (run_Load_resolutions (Unpickler_Load_hooked E f3) empty_store)
    as Hres.
  rewrite Hgraph in Hres. exact (resolutions_ok _ _ Hres empty_store_ok).
Qed.

(** X14. With an empty key order the load returns the object graph and
    reads nothing of the payload: the cursor stays behind the key order,
    and the storages of the graph, though allocated and registered, have
    no bytes. *)
Theorem X14_empty_key_order
    (E : Env) (filename : string) (f f5 : Stream) (graph : Value) (st : Store) :
  legacy_raw E filename f →
  decoded E f graph st [] f5 →
  Load E filename = mkLoaded (Ok graph) (heap st) f5
  ∧ Forall (λ s, storage_data s = []) (heap st).
Proof.
  intros Hraw Hdec.
  rewrite (Load_legacy_raw _ _ _ Hraw), (loadLegacyNoTar_decoded _ _ _ _ _ _ Hdec).
  split; [done|]. by destruct (decoded_ok _ _ _ _ _ _ Hdec) as (_ & _ & _ & _ & ?).
Qed.

Lemma X14_witness :
  Load (Sample.env Sample.no_keys_file (Some tar_ErrHeader)) "no_keys.pt"
  = mkLoaded (Ok Demo.graph) (heap Demo.store) Demo.payload
  ∧ Forall (λ s, storage_data s = []) (heap Demo.store).
Proof.
  apply (X14_empty_key_order _ "no_keys.pt" Sample.no_keys_file).
  - apply Sample_legacy_raw.
  - exists ([Byte.x04; Byte.x0a] ++ Demo.payload),
      ([Byte.x0a] ++ Demo.payload), (VList []).
    split; [|split; [|split]].
    + exists ([Byte.x02; Byte.x03; Byte.x04; Byte.x0a] ++ Demo.payload),
        ([Byte.x03; Byte.x04; Byte.x0a] ++ Demo.payload), VNil.
      split; [|split]; reflexivity.
    + vm_compute. reflexivity.
    + reflexivity.
    + reflexivity.
Defined.

Lemma storage_keys_of_outcome (raw : list Value) :
  (∃ keys, storage_keys_of raw = Ok keys)
  ∨ storage_keys_of raw = Err (Errorf "invalid storage key").
Proof.
  induction raw as [|rawKey raw IH]; cbn; [by left; eexists|].
  destruct (as_string rawKey); [|by right].
  destruct IH as [[keys ->]| ->]; [by left; eexists|by right].
Qed.

(** X15. When the value decoded where the key order is due is no list of
    strings, the load fails with an error of [makeStorageKeys], after
    the object graph has been decoded: the cursor stays behind that value,
    nothing of the payload is read, no storage gets bytes, and no result
    is returned. *)
Theorem X15_invalid_key_order
    (E : Env) (filename : string) (f f3 f4 f5 : Stream)
    (graph rawStorageKeys : Value) (st : Store) :
  legacy_raw E filename f →
  header_ok E f f3 →
  run_Load (Unpickler_Load_hooked E f3) empty_store = (Ok graph, st, f4) →
  unpickle E f4 = (Ok rawStorageKeys, f5) →
  (∀ keys, rawStorageKeys ≠ VList (VString <$> keys)) →
  ∃ e,
    Load E filename = mkLoaded (Err e) (heap st) f5
    ∧ (e = Errorf "invalid storage keys data" ∨ e = Errorf "invalid storage key")
    ∧ Forall (λ s, storage_data s = []) (heap st).
Proof.
  intros Hraw Hheader Hgraph Hkeys Hno.
  rewrite (Load_legacy_raw _ _ _ Hraw), (loadLegacyNoTar_header_ok _ _ _ Hheader).
  unfold loadLegacyNoTar_graph. rewrite Hgraph, Hkeys.
  assert (Hdata : Forall (λ s, storage_data s = []) (heap st)).
  { pose proof (run_Load_resolutions (Unpickler_Load_hooked E f3) empty_store)
      as Hres.
    rewrite Hgraph in Hres.
    by destruct (resolutions_ok _ _ Hres empty_store_ok) as (_ & _ & _ & _ & ?). }
  destruct rawStorageKeys as [| | | | |raw| | | | |];
    try (eexists; split; [reflexivity|]; split; [by left|done]).
  cbn. destruct (storage_keys_of_outcome raw) as [[keys Hok]|Herr].
  - apply storage_keys_of_Ok in Hok. subst raw. by destruct (Hno keys).
  - rewrite Herr. eexists. split; [reflexivity|]. split; [by right|done].
Qed.

Lemma X15_witness :
  ∃ e,
    Load (Sample.env Sample.tuple_keys_file (Some tar_ErrHeader)) "tuple_keys.pt"
    = mkLoaded (Err e) (heap Demo.store) Demo.payload
    ∧ (e = Errorf "invalid storage keys data" ∨ e = Errorf "invalid storage key")
    ∧ Forall (λ s, storage_data s = []) (heap Demo.store).
Proof.
  apply (X15_invalid_key_order _ "tuple_keys.pt" Sample.tuple_keys_file
           ([Byte.x04; Byte.x0b] ++ Demo.payload)
           ([Byte.x0b] ++ Demo.payload) Demo.payload
           Demo.graph (VTuple [VString "0"]) Demo.store).
  - apply Sample_legacy_raw.
  - exists ([Byte.x02; Byte.x03; Byte.x04; Byte.x0b] ++ Demo.payload),
      ([Byte.x03; Byte.x04; Byte.x0b] ++ Demo.payload), VNil.
    split; [|split]; reflexivity.
  - vm_compute. reflexivity.
  - reflexivity.
  - intros keys. discriminate.
Defined.

Lemma pickleFindClass_unknown (module name : string) :
  (module +:+ "." +:+ name) ∉ known_class_names →
  pickleFindClass module name
  = Err (Errorf ("class no found: " +:+ module +:+ " " +:+ name)).
Proof.
  unfold pickleFindClass, known_class_names. cbn [map StorageClass_name].
  rewrite !elem_of_cons. intros Hno.
  repeat match goal with
         | |- context [String.eqb ?a ?b] =>
             destruct (String.eqb_spec a b) as [Heq|?]; [rewrite Heq in Hno; tauto|]
         end.
  reflexivity.
Qed.

Lemma run_reaches_run_Load d st d1 st1 :
  run_reaches d st d1 st1 → run_Load d st = run_Load d1 st1.
Proof.
  induction 1 as [d st|module name here k c st d1 st1 Hc _ IH
                  |savedId here k v st st0 d1 st1 Hcall _ IH];
    [done|..]; cbn [run_Load].
  - by rewrite Hc.
  - by rewrite Hcall.
Qed.

(** X16. An object graph that names a class that [pickleFindClass] does
    not know makes the load fail with the error of that class, wherever in
    the graph the name stands: when the decoding of the graph, after any
    calls of the hooks that returned values, asks for such a class, [Load]
    returns this error and no result, with the cursor at the place of the
    name and the storages that the persistent references before it
    allocated. *)
Theorem X16_unknown_class
    (E : Env) (filename : string) (f f3 here : Stream)
    (module name : string) (k : Value → Decoding) (st : Store) :
  legacy_raw E filename f →
  header_ok E f f3 →
  run_reaches (Unpickler_Load_hooked E f3) empty_store
    (DecFindClass module name here k) st →
  (module +:+ "." +:+ name) ∉ known_class_names →
  Load E filename
  = mkLoaded (Err (Errorf ("class no found: " +:+ module +:+ " " +:+ name)))
      (heap st) here.
Proof.
  intros Hraw Hheader Hreach Hunknown.
  rewrite (Load_legacy_raw _ _ _ Hraw), (loadLegacyNoTar_header_ok _ _ _ Hheader).
  unfold loadLegacyNoTar_graph.
  rewrite (run_reaches_run_Load _ _ _ _ Hreach). cbn [run_Load].
  by rewrite (pickleFindClass_unknown _ _ Hunknown).
Qed.

Lemma X16_witness :
  Load (Sample.late_env Sample.late_unknown_class_file) "linear.pt"
  = mkLoaded
      (Err (Errorf ("class no found: " +:+ "torch.nn" +:+ " " +:+ "Linear")))
      (heap Demo.store) [Byte.x05].
Proof.
  apply (X16_unknown_class _ "linear.pt" Sample.late_unknown_class_file
           [Byte.x0c; Byte.x05] [Byte.x05] "torch.nn" "Linear"
           (λ c1, DecDone (Ok (VTuple [c1; VStorage 0])) [Byte.x05])
           Demo.store).
  - by repeat split.
  - exists [Byte.x02; Byte.x03; Byte.x0c; Byte.x05],
      [Byte.x03; Byte.x0c; Byte.x05], VNil.
    split; [|split]; reflexivity.
  - eapply run_reaches_FindClass; [reflexivity|].
    eapply run_reaches_PersistentLoad; [vm_compute; reflexivity|].
    apply run_reaches_refl.
  - intros Hin. unfold known_class_names in Hin. cbn in Hin.
    rewrite !elem_of_cons, elem_of_nil in Hin.
    repeat destruct Hin as [Hin|Hin]; discriminate || done.
Defined.

(** The loop over the storage keys ends without error only when every
    key is registered. *)
Lemma set_storages_from_file_None keys st f h f1 :
  set_storages_from_file keys st f = (None, h, f1) →
  ∀ key, key ∈ keys → is_Some (deserializedObjects st !! key).
Proof.
  revert st f. induction keys as [|key0 keys IH]; intros st f; cbn.
  - intros _ key Hin. by apply elem_of_nil in Hin.
  - destruct (deserializedObjects st !! key0) as [p|] eqn:Hp; [|discriminate].
    destruct (SetFromFile p (heap st) f) as [[[err|] h1] f2]; [discriminate|].
    intros Hloop key [->|Hin]%elem_of_cons; [by eexists|].
    apply (IH _ _ Hloop key Hin).
Qed.

(** X17. [Load] returns a value for a legacy file only when all phases
    went through: the first value decoded is the magic number, the second
    the integer 1001, a third value decodes, the value returned is the
    object graph as the decoder gave it, the value after it is a list of
    strings, and each of these keys has a storage that a persistent
    reference of the graph registered. *)
Theorem X17_Load_Ok
    (E : Env) (filename : string) (f : Stream) (v : Value) :
  legacy_raw E filename f →
  result (Load E filename) = Ok v →
  ∃ st storageKeys f5,
    decoded E f v st storageKeys f5
    ∧ (∀ key, key ∈ storageKeys → is_Some (deserializedObjects st !! key))
    ∧ length (storages (Load E filename)) = length (heap st).
Proof.
  intros Hraw. rewrite (Load_legacy_raw _ _ _ Hraw).
  unfold loadLegacyNoTar, readAndCheckMagicNumber, readAndChecProtocolVersion,
    loadLegacyNoTar_sys_info, loadLegacyNoTar_graph.
  destruct (unpickle E f) as [[obj1| |] f1] eqn:H1; try discriminate.
  destruct obj1 as [| | |n| | | | | | |]; try discriminate. cbn.
  destruct (String.eqb_spec (big_Text16 n) hexMagicNumber) as [Hn|];
    [|discriminate].
  apply big_Text16_is_magic in Hn. subst n. cbn.
  destruct (unpickle E f1) as [[obj2| |] f2] eqn:H2; try discriminate.
  destruct obj2 as [|n| | | | | | | | |]; try discriminate. cbn.
  destruct (Z.eqb_spec n protocolVersion) as [->|]; [|discriminate]. cbn.
  destruct (unpickle E f2) as [[sys_info| |] f3] eqn:H3; try discriminate.
  destruct (run_Load (Unpickler_Load_hooked E f3) empty_store)
    as [[[graph| |] st] f4] eqn:Hgraph; try discriminate.
  destruct (unpickle E f4) as [[raw| |] f5] eqn:H5; try discriminate.
  destruct (makeStorageKeys raw) as [storageKeys| |] eqn:Hkeys; try discriminate.
  destruct (set_storages_from_file storageKeys st f5)
    as [[[err|] h] f6] eqn:Hloop; [discriminate|].
  cbn. intros [= <-]. exists st, storageKeys, f5.
  pose proof (set_storages_from_file_None _ _ _ _ _ Hloop) as Hreg.
  split; [|split; [exact Hreg|]].
  - exists f3, f4, raw. split; [|done]. by exists f1, f2, sys_info.
  - pose proof (run_Load_wf (Unpickler_Load_hooked E f3) empty_store
                  empty_store_wf) as Hwf.
    rewrite Hgraph in Hwf.
    pose proof (set_storages_from_file_registered storageKeys st f5 Hwf Hreg)
      as Hlen.
    by rewrite Hloop in Hlen.
Qed.

Lemma X17_witness :
  ∃ st storageKeys f5,
    decoded Demo.env (Demo.header ++ [Byte.x04; Byte.x05] ++ Demo.payload)
      (VTuple [VStorage 0; VStorage 0]) st storageKeys f5
    ∧ (∀ key, key ∈ storageKeys → is_Some (deserializedObjects st !! key))
    ∧ length (storages (Load Demo.env "shared.pt")) = length (heap st).
Proof.
  apply (X17_Load_Ok Demo.env "shared.pt"
           (Demo.header ++ [Byte.x04; Byte.x05] ++ Demo.payload)
           (VTuple [VStorage 0; VStorage 0])).
  - apply Demo_legacy_raw. reflexivity.
  - vm_compute. reflexivity.
Defined.
